(** * Per-tenant query filtering (examples/extending_query/filter_per_tenant.py)

    A shallow embedding of the tenant context holder, of the
    [do_orm_execute] hook [_add_filtering_criteria] and of the declarative
    classes of the example, followed by the properties of the hook. *)

From stdpp Require Import base option list strings gmap.
From Stdlib Require Import ZArith Lia.

Open Scope Z_scope.

(** ** Python values and exceptions *)

(** The values an execution option may hold. *)
Inductive PyVal :=
| PyNone
| PyBool (b : bool)
| PyInt (n : Z)
| PyStr (s : string).

(** Python truth value testing, as used by [not x]. *)
Definition truthy (v : PyVal) : bool :=
  match v with
  | PyNone => false
  | PyBool b => b
  | PyInt n => negb (n =? 0)
  | PyStr s => negb (String.eqb s "")
  end.

(** [d.get(key, default)]. *)
Definition dict_get (d : gmap string PyVal) (key : string) (default : PyVal) : PyVal :=
  match d !! key with
  | Some v => v
  | None => default
  end.

Inductive Exception :=
| AttributeError (msg : string)
| AssertionError (msg : string).

(** Outcome of a call that may raise. *)
Inductive result (A : Type) :=
| Ok (a : A)
| Raise (e : Exception).
Arguments Ok {A} a.
Arguments Raise {A} e.

#[global] Instance result_ret : MRet result := fun A a => Ok a.
#[global] Instance result_bind : MBind result := fun A B f m =>
  match m with
  | Ok a => f a
  | Raise e => Raise e
  end.

(** ** Declarative classes *)

Module Account.
Definition __tablename__ : string := "account".
(** [id] is the primary key; it is [None] on an object that was built
    without one. *)
Record t := mk { id : option string; name : option string }.
End Account.

(** The classes something can be an instance or a subclass of. *)
Inductive PyClass :=
| cls_Account
| cls_AccountBoundMixin
| cls_User
| cls_Address.

#[global] Instance PyClass_eq_dec : EqDecision PyClass.
Proof. solve_decision. Defined.

(** The bases of each class statement: [class Account(Base)],
    [class User(Base, AccountBoundMixin)], [class Address(Base, AccountBoundMixin)]. *)
Definition bases (c : PyClass) : list PyClass :=
  match c with
  | cls_Account => []
  | cls_AccountBoundMixin => []
  | cls_User => [cls_AccountBoundMixin]
  | cls_Address => [cls_AccountBoundMixin]
  end.

Definition issubclass (c parent : PyClass) : bool :=
  bool_decide (c = parent) || bool_decide (parent ∈ bases c).

Module User.
Definition __tablename__ : string := "user".
Record t := mk { id : Z; name : string; account_id : string }.
End User.

Module Address.
Definition __tablename__ : string := "address".
Record t := mk { id : Z; email : string; user_id : option Z; account_id : string }.
End Address.

(** ** The tenant context holder *)

Module Context.
Record t := mk { current_account : option Account.t }.

Definition __init__ : t := {| current_account := None |}.

Definition get_current_account (self : t) : option Account.t :=
  current_account self.

Definition set_current_account (self : t) (account : option Account.t) : t :=
  {| current_account := account |}.
End Context.

(** ** Statements *)

Inductive Relationship :=
| User_addresses
| Address_user
| AccountBound_account.

(** The criteria lambda of the hook, [lambda cls: cls.account_id ==
    current_account_id], with the value of its closure variable. *)
Inductive LambdaCriteria :=
| account_id_eq (current_account_id : string).

Inductive ExecutableOption :=
| with_loader_criteria (entity : PyClass) (where_criteria : LambdaCriteria)
    (include_aliases track_closure_variables : bool)
| selectinload (rel : Relationship)
| lazyload (rel : Relationship).

Inductive Instance :=
| AccountObj (a : Account.t)
| UserObj (u : User.t)
| AddressObj (a : Address.t).

Inductive FromClause :=
| Table (name : string)
| Alias (element : FromClause) (name : string)
| Subquery (element : FromClause) (name : string)
| Join (left right : FromClause) (onclause : list Instance → list Instance → bool).

Inductive StatementKind := Select | Insert | Update | Delete | TextClause.

Module Statement.
Record t := mk {
  kind : StatementKind;
  final_froms : list FromClause;
  whereclause : list Instance → bool;
  _with_options : list ExecutableOption
}.

(** [statement.options(o)]: a copy of the statement with [o] appended. *)
Definition options (self : t) (o : ExecutableOption) : t :=
  {| kind := kind self;
     final_froms := final_froms self;
     whereclause := whereclause self;
     _with_options := _with_options self ++ [o] |}.

(** Modelled from the spec: [get_final_froms] of the framework is not in
    the sources; a statement carries its final FROM list. *)
Definition get_final_froms (self : t) : list FromClause := final_froms self.
End Statement.

Definition isinstance_Select (s : Statement.t) : bool :=
  match Statement.kind s with
  | Select => true
  | _ => false
  end.

Definition isinstance_Table (f : FromClause) : bool :=
  match f with
  | Table _ => true
  | _ => false
  end.

(** [f.name]; every FROM object that has no name of its own answers [None]. *)
Definition FromClause_name (f : FromClause) : option string :=
  match f with
  | Table n => Some n
  | Alias _ n => Some n
  | Subquery _ n => Some n
  | Join _ _ _ => None
  end.

Record ORMExecuteState := mkState {
  statement : Statement.t;
  is_relationship_load : bool;
  is_column_load : bool;
  execution_options : gmap string PyVal
}.

Definition set_statement (st : ORMExecuteState) (s : Statement.t) : ORMExecuteState :=
  {| statement := s;
     is_relationship_load := is_relationship_load st;
     is_column_load := is_column_load st;
     execution_options := execution_options st |}.

(** ** The hook *)

(** Lines 53-59: the statement is a select whose only final FROM is the
    table of [Account]. *)
Definition is_account_select (s : Statement.t) : bool :=
  isinstance_Select s
  && bool_decide (length (Statement.get_final_froms s) = 1%nat)
  && match Statement.get_final_froms s !! 0%nat with
     | Some f =>
         isinstance_Table f
         && bool_decide (FromClause_name f = Some Account.__tablename__)
     | None => false
     end.

(** Lines 45-60: the guard of the hook. *)
Definition wants_filtering (execute_state : ORMExecuteState) : bool :=
  negb (is_relationship_load execute_state)
  && negb (is_column_load execute_state)
  && negb (truthy (dict_get (execution_options execute_state)
                     "include_all_accounts" (PyBool false)))
  && negb (is_account_select (statement execute_state)).

(** [account.id]: attribute access raises on [None]. *)
Definition getattr_id (account : option Account.t) : result (option string) :=
  match account with
  | Some a => Ok (Account.id a)
  | None => Raise (AttributeError "'NoneType' object has no attribute 'id'")
  end.

(** The option built at lines 65-70. *)
Definition tenant_criteria (current_account_id : string) : ExecutableOption :=
  with_loader_criteria cls_AccountBoundMixin (account_id_eq current_account_id)
    true true.

(** [_add_filtering_criteria]: the new execute state, or the exception. *)
Definition _add_filtering_criteria (context : Context.t)
    (execute_state : ORMExecuteState) : result ORMExecuteState :=
  if wants_filtering execute_state then
    let account := Context.get_current_account context in
    current_account_id ← getattr_id account;
    match current_account_id with
    | Some v =>
        Ok (set_statement execute_state
              (Statement.options (statement execute_state) (tenant_criteria v)))
    | None => Ok execute_state
    end
  else Ok execute_state.

(** ** The session *)

Definition Row := list Instance.
Definition Database := list Instance.

(** Modelled from the spec: [Session.execute] of the framework. The hook
    is "invoked synchronously by the ORM immediately before compiling /
    executing any statement on a session"; the statement it leaves in the
    execute state is then run by the framework's executor [run]. *)
Definition Session_execute (run : Database → Statement.t → list Row)
    (context : Context.t) (db : Database) (execute_state : ORMExecuteState)
    : result (ORMExecuteState * list Row) :=
  st ← _add_filtering_criteria context execute_state;
  Ok (st, run db (statement st)).

(** ** The framework's executor *)

Definition class_of (i : Instance) : PyClass :=
  match i with
  | AccountObj _ => cls_Account
  | UserObj _ => cls_User
  | AddressObj _ => cls_Address
  end.

Definition table_of (i : Instance) : string :=
  match i with
  | AccountObj _ => Account.__tablename__
  | UserObj _ => User.__tablename__
  | AddressObj _ => Address.__tablename__
  end.

(** [obj.account_id]; [None] where the class has no such column. *)
Definition getattr_account_id (i : Instance) : option string :=
  match i with
  | AccountObj _ => None
  | UserObj u => Some (User.account_id u)
  | AddressObj a => Some (Address.account_id a)
  end.

Definition lambda_holds (l : LambdaCriteria) (i : Instance) : bool :=
  match l with
  | account_id_eq v => bool_decide (getattr_account_id i = Some v)
  end.

(** Modelled from the spec: loader criteria of the framework, "a global
    predicate attached to a query", scoped to the classes that carry the
    capability it names, and reaching aliased occurrences when
    [include_aliases] is set. *)
Definition option_admits (aliased : bool) (i : Instance) (o : ExecutableOption) : bool :=
  match o with
  | with_loader_criteria entity where_criteria include_aliases _ =>
      if issubclass (class_of i) entity && (negb aliased || include_aliases)
      then lambda_holds where_criteria i
      else true
  | _ => true
  end.

Definition admits (opts : list ExecutableOption) (aliased : bool) (i : Instance) : bool :=
  forallb (option_admits aliased i) opts.

(** Modelled from the spec: the rows of one FROM object of the framework's
    SELECT. The loader criteria apply "to every aliased or joined
    occurrence of a tenant-bound entity reachable from the statement". *)
Fixpoint from_rows (db : Database) (opts : list ExecutableOption)
    (aliased : bool) (f : FromClause) : list Row :=
  match f with
  | Table n =>
      (λ i, [i]) <$> filter (λ i, table_of i = n ∧ admits opts aliased i = true) db
  | Alias e _ => from_rows db opts true e
  | Subquery e _ => from_rows db opts aliased e
  | Join l r onclause =>
      t1 ← from_rows db opts aliased l;
      t2 ← from_rows db opts aliased r;
      if onclause t1 t2 then [t1 ++ t2] else []
  end.

(** Modelled from the spec: the rows of the final FROM list of a SELECT,
    the product of the rows of its members. *)
Fixpoint froms_rows (db : Database) (opts : list ExecutableOption)
    (fs : list FromClause) : list Row :=
  match fs with
  | [] => [[]]
  | f :: fs' =>
      t1 ← from_rows db opts false f;
      t2 ← froms_rows db opts fs';
      [t1 ++ t2]
  end.

(** Modelled from the spec: execution of a statement by the framework. A
    SELECT returns the rows of its final FROM list that pass its WHERE
    clause; the other statements return no rows. *)
Definition run_statement (db : Database) (s : Statement.t) : list Row :=
  match Statement.kind s with
  | Select =>
      filter (λ t, Statement.whereclause s t = true)
        (froms_rows db (Statement._with_options s) (Statement.get_final_froms s))
  | _ => []
  end.

(** ** Queries and relationship loads *)

Definition is_loader_criteria (o : ExecutableOption) : bool :=
  match o with
  | with_loader_criteria _ _ _ _ => true
  | _ => false
  end.

(** Modelled from the spec: the loader criteria of a statement are the
    options that "propagate automatically to relationship-driven
    sub-queries". *)
Definition propagate_to_loaders (opts : list ExecutableOption) : list ExecutableOption :=
  filter (λ o, is_loader_criteria o = true) opts.

Definition users_of (rows : list Row) : list User.t :=
  omap (λ i, match i with UserObj u => Some u | _ => None end) (mjoin rows).

Definition addresses_of (rows : list Row) : list Address.t :=
  omap (λ i, match i with AddressObj a => Some a | _ => None end) (mjoin rows).

Definition accounts_of (rows : list Row) : list Account.t :=
  omap (λ i, match i with AccountObj a => Some a | _ => None end) (mjoin rows).

(** [sess.query(cls)]: a select of the table of the class. *)
Definition Session_query (tablename : string) : Statement.t :=
  {| Statement.kind := Select;
     Statement.final_froms := [Table tablename];
     Statement.whereclause := λ _, true;
     Statement._with_options := [] |}.

Definition Query_options (q : Statement.t) (opts : list ExecutableOption) : Statement.t :=
  foldl Statement.options q opts.

(** Modelled from the spec: the statement the framework issues to load
    [User.addresses] for the parents [ids], carrying the options [carried]
    of the parent query. *)
Definition addresses_statement (carried : list ExecutableOption) (ids : list Z)
    : Statement.t :=
  {| Statement.kind := Select;
     Statement.final_froms := [Table Address.__tablename__];
     Statement.whereclause := λ t,
       match t with
       | [AddressObj a] =>
           match Address.user_id a with
           | Some uid => bool_decide (uid ∈ ids)
           | None => false
           end
       | _ => false
       end;
     Statement._with_options := carried |}.

(** Modelled from the spec: the statement the framework issues to load
    the [account] relationship. *)
Definition account_statement (carried : list ExecutableOption) (account_id : string)
    : Statement.t :=
  {| Statement.kind := Select;
     Statement.final_froms := [Table Account.__tablename__];
     Statement.whereclause := λ t,
       match t with
       | [AccountObj a] => bool_decide (Account.id a = Some account_id)
       | _ => false
       end;
     Statement._with_options := carried |}.

(** The [addresses] attribute of a loaded user: the collection, or the
    pending lazy load with the options of the query that loaded the user. *)
Inductive Collection :=
| Loaded (l : list Address.t)
| Unloaded (carried : list ExecutableOption).

Record LoadedUser := mkLoaded { obj : User.t; addresses : Collection }.

Definition has_selectinload (opts : list ExecutableOption) : bool :=
  existsb (λ o, match o with selectinload User_addresses => true | _ => false end) opts.

Definition addresses_for (u : User.t) (l : list Address.t) : list Address.t :=
  filter (λ a, Address.user_id a = Some (User.id u)) l.

(** Modelled from the spec: iteration of a query for users. The query runs
    through [Session.execute]; with [selectinload] the addresses of all the
    users come from one relationship load that runs through
    [Session.execute] as well, otherwise each user keeps a lazy load. *)
Definition Query_iter (context : Context.t) (db : Database) (q : Statement.t)
    (execution_options : gmap string PyVal) : result (list LoadedUser) :=
  '(st, rows) ← Session_execute run_statement context db
                  (mkState q false false execution_options);
  let users := users_of rows in
  let carried := propagate_to_loaders (Statement._with_options (statement st)) in
  if has_selectinload (Statement._with_options q) then
    '(_, arows) ← Session_execute run_statement context db
                    (mkState (addresses_statement carried (User.id <$> users))
                       true false execution_options);
    Ok ((λ u, mkLoaded u (Loaded (addresses_for u (addresses_of arows)))) <$> users)
  else
    Ok ((λ u, mkLoaded u (Unloaded carried)) <$> users).

(** Modelled from the spec: [u.addresses]. A pending lazy load runs
    through [Session.execute] as a relationship load, under the context of
    the time of the access. *)
Definition get_addresses (context : Context.t) (db : Database) (lu : LoadedUser)
    : result (list Address.t) :=
  match addresses lu with
  | Loaded l => Ok l
  | Unloaded carried =>
      '(_, rows) ← Session_execute run_statement context db
                     (mkState (addresses_statement carried [User.id (obj lu)])
                        true false ∅);
      Ok (addresses_of rows)
  end.

(** Modelled from the spec: [obj.account] of a tenant-bound object loaded
    by a query whose options were [carried]. *)
Definition get_account (context : Context.t) (db : Database)
    (carried : list ExecutableOption) (account_id : string)
    : result (list Account.t) :=
  '(_, rows) ← Session_execute run_statement context db
                 (mkState (account_statement carried account_id) true false ∅);
  Ok (accounts_of rows).

(** ** The script *)

(** The claim of the tenant-table exemption in the words of the
    specification: "a direct single-table select against the Tenant table
    itself". *)
Definition direct_account_select (s : Statement.t) : Prop :=
  Statement.kind s = Select
  ∧ Statement.get_final_froms s = [Table Account.__tablename__].

Definition MAKE_TESTS_PASS : bool := false.

(** Line 120: the keyword arguments of [create_engine]. The executor above
    keeps no statement cache, so they do not reach it. *)
Definition kwargs : gmap string PyVal :=
  if negb MAKE_TESTS_PASS then ∅ else {[ "query_cache_size" := PyInt 0 ]}.

Definition acc1 : Account.t := Account.mk (Some "acc1") (Some "test account 1").
Definition acc2 : Account.t := Account.mk (Some "acc2") (Some "test account 2").

(** A pending address [(email, account_id)] and a pending user
    [(name, account_id, addresses)], before the flush gives them keys. *)
Definition PendingAddress : Type := string * string.
Definition PendingUser : Type := string * string * list PendingAddress.

(** Lines 136-179, with [acc1.id] and [acc2.id] read off. *)
Definition pending_users : list PendingUser :=
  [ ("u1", "acc1", [("u1a1", "acc1"); ("u1a2", "acc1")]);
    ("u2", "acc1", [("u2a1", "acc2"); ("u2a2", "acc1")]);
    ("u3", "acc2", [("u3a1", "acc2"); ("u3a2", "acc2")]);
    ("u4", "acc2", [("u4a1", "acc2"); ("u4a2", "acc1")]);
    ("u5", "acc1", [("u5a1", "acc1"); ("u5a2", "acc2")]) ].

Fixpoint flush_addresses (user_id next : Z) (l : list PendingAddress) : list Instance :=
  match l with
  | [] => []
  | (email, account_id) :: l' =>
      AddressObj (Address.mk next email (Some user_id) account_id)
      :: flush_addresses user_id (next + 1) l'
  end.

(** Modelled from the spec: the inserts of the commit; integer keys are
    given in insertion order and an address gets the key of its user. *)
Fixpoint flush_users (next_user next_address : Z) (l : list PendingUser) : list Instance :=
  match l with
  | [] => []
  | (name, account_id, addrs) :: l' =>
      UserObj (User.mk next_user name account_id)
      :: flush_addresses next_user next_address addrs
      ++ flush_users (next_user + 1) (next_address + Z.of_nat (length addrs)) l'
  end.

Definition main_db : Database :=
  [AccountObj acc1; AccountObj acc2] ++ flush_users 1 1 pending_users.

(** [sess.query(User).options(orm.selectinload(User.addresses))]. *)
Definition users_query : Statement.t :=
  Query_options (Session_query User.__tablename__) [selectinload User_addresses].

(** [sess.query(User)]: the addresses are loaded lazily. *)
Definition users_query_lazy : Statement.t := Session_query User.__tablename__.

Definition assert (b : bool) (msg : string) : result unit :=
  if b then Ok () else Raise (AssertionError msg).

Fixpoint for_each {A : Type} (l : list A) (body : A → result unit) : result unit :=
  match l with
  | [] => Ok ()
  | x :: l' => _ ← body x; for_each l' body
  end.

(** The loops of lines 185-191 and 195-201. *)
Definition check_users (context : Context.t) (db : Database) (acc : Account.t)
    (msg : string) : result unit :=
  us ← Query_iter context db users_query ∅;
  for_each us (λ u1,
    _ ← assert (bool_decide (Some (User.account_id (obj u1)) = Account.id acc)) "";
    addrs ← get_addresses context db u1;
    for_each addrs (λ address,
      assert (bool_decide (Some (Address.account_id address) = Account.id acc)) msg)).

Definition main : result unit :=
  let context := Context.__init__ in
  let context := Context.set_current_account context (Some acc1) in
  _ ← check_users context main_db acc1 "";
  let context := Context.set_current_account context (Some acc2) in
  check_users context main_db acc2 "expected all addresses to belong to account 2".

(** The name of every loaded user with the emails of its [addresses], each
    collection read under [context]. *)
Fixpoint addresses_by_user (context : Context.t) (db : Database)
    (us : list LoadedUser) : result (list (string * list string)) :=
  match us with
  | [] => Ok []
  | lu :: us' =>
      addrs ← get_addresses context db lu;
      rest ← addresses_by_user context db us';
      Ok ((User.name (obj lu), Address.email <$> (addrs : list Address.t)) :: rest)
  end.

(** Two queries with a change of tenant in between (lines 185-201). *)
Definition query_switch_query (context : Context.t) (db : Database)
    (q : Statement.t) (t1 t2 : Account.t)
    : result (list LoadedUser * list LoadedUser) :=
  let context := Context.set_current_account context (Some t1) in
  us1 ← Query_iter context db q ∅;
  let context := Context.set_current_account context (Some t2) in
  us2 ← Query_iter context db q ∅;
  Ok (us1, us2).

(** * Properties *)

(** ** The context holder *)

(** C8: the holder is a single slot: a read before any write gives [None],
    a read after a write gives the value written, and a write replaces the
    state left by the write before it. *)
Theorem C8_context_single_slot :
  Context.get_current_account Context.__init__ = None
  ∧ (∀ self v,
       Context.get_current_account (Context.set_current_account self v) = v)
  ∧ (∀ self v w,
       Context.set_current_account (Context.set_current_account self v) w
       = Context.set_current_account self w)
  ∧ (∀ self v w,
       Context.get_current_account
         (Context.set_current_account (Context.set_current_account self v) w) = w).
Proof. repeat split. Qed.

(** ** The guard of the hook *)

Lemma hook_skips context st :
  wants_filtering st = false → _add_filtering_criteria context st = Ok st.
Proof. unfold _add_filtering_criteria. by intros ->. Qed.

Lemma hook_attaches context st account v :
  wants_filtering st = true →
  Context.get_current_account context = Some account →
  Account.id account = Some v →
  _add_filtering_criteria context st
  = Ok (set_statement st (Statement.options (statement st) (tenant_criteria v))).
Proof.
  unfold _add_filtering_criteria. intros -> -> Hid. simpl. by rewrite Hid.
Qed.

Lemma hook_passes_without_id context st account :
  Context.get_current_account context = Some account →
  Account.id account = None →
  _add_filtering_criteria context st = Ok st.
Proof.
  unfold _add_filtering_criteria. intros -> Hid.
  destruct (wants_filtering st); simpl; by rewrite ?Hid.
Qed.

Lemma is_account_select_spec s :
  is_account_select s = true ↔ direct_account_select s.
Proof.
  unfold is_account_select, direct_account_select, isinstance_Select,
    Statement.get_final_froms.
  destruct s as [k fs w o]; simpl. split.
  - intros H. apply andb_prop in H as [H H3]. apply andb_prop in H as [H1 H2].
    destruct k; try discriminate. split; [done|].
    apply bool_decide_eq_true_1 in H2.
    destruct fs as [|f [|g fs]]; simplify_eq/=.
    destruct f; simplify_eq/=.
    apply bool_decide_eq_true_1 in H3. by simplify_eq.
  - intros [-> ->]. reflexivity.
Qed.


(** C7: an execution that is a relationship load or a column load leaves
    the hook with the execute state, and so the statement, as it came. *)
Theorem C7_relationship_and_column_loads_skipped context st :
  is_relationship_load st = true ∨ is_column_load st = true →
  _add_filtering_criteria context st = Ok st
  ∧ ∀ st', _add_filtering_criteria context st = Ok st' → statement st' = statement st.
Proof.
  intros H.
  assert (Hs : _add_filtering_criteria context st = Ok st).
  { apply hook_skips. unfold wants_filtering. destruct H as [-> | ->]; [done|].
    by rewrite andb_false_r. }
  split; [done|]. rewrite Hs. by intros st' [= <-].
Qed.

Lemma C7_witness :
  _add_filtering_criteria Context.__init__
    (mkState (addresses_statement [] [1]) true false ∅)
  = Ok (mkState (addresses_statement [] [1]) true false ∅).
Proof.
  apply (C7_relationship_and_column_loads_skipped Context.__init__
           (mkState (addresses_statement [] [1]) true false ∅)).
  left. reflexivity.
Defined.

(** C5: with a true value under ["include_all_accounts"] in the execution
    options, whatever the context holds, the hook leaves the statement as
    it is and the session returns what the executor gives for that
    statement. *)
Theorem C5_bypass_flag_leaves_statement run context db st :
  truthy (dict_get (execution_options st) "include_all_accounts" (PyBool false)) = true →
  _add_filtering_criteria context st = Ok st
  ∧ Session_execute run context db st = Ok (st, run db (statement st)).
Proof.
  intros H.
  assert (Hs : _add_filtering_criteria context st = Ok st).
  { apply hook_skips. unfold wants_filtering. rewrite H. simpl.
    by rewrite andb_false_r. }
  split; [done|]. unfold Session_execute. by rewrite Hs.
Qed.

Lemma C5_witness :
  Session_execute run_statement
    (Context.set_current_account Context.__init__ (Some acc1)) main_db
    (mkState users_query false false {[ "include_all_accounts" := PyBool true ]})
  = Ok (mkState users_query false false {[ "include_all_accounts" := PyBool true ]},
        run_statement main_db users_query).
Proof.
  apply (C5_bypass_flag_leaves_statement run_statement
           (Context.set_current_account Context.__init__ (Some acc1)) main_db
           (mkState users_query false false {[ "include_all_accounts" := PyBool true ]})).
  reflexivity.
Defined.

(** Under "acc1" with the flag, the script's query sees all five users and
    all their addresses. *)
Example bypass_sees_every_account :
  (Query_iter (Context.set_current_account Context.__init__ (Some acc1))
     main_db users_query {[ "include_all_accounts" := PyBool true ]}
   ≫= addresses_by_user (Context.set_current_account Context.__init__ (Some acc1))
        main_db)
  = Ok [("u1", ["u1a1"; "u1a2"]); ("u2", ["u2a1"; "u2a2"]);
        ("u3", ["u3a1"; "u3a2"]); ("u4", ["u4a1"; "u4a2"]);
        ("u5", ["u5a1"; "u5a2"])].
Proof. vm_compute. reflexivity. Qed.

(** C6: a select whose final FROM list is the one table named "account" is
    left as it is by the hook, whatever the context holds and whatever the
    flags of the execution are; the context is not even read. *)
Theorem C6_account_select_never_filtered run context db st :
  Statement.kind (statement st) = Select →
  Statement.get_final_froms (statement st) = [Table "account"] →
  _add_filtering_criteria context st = Ok st
  ∧ Session_execute run context db st = Ok (st, run db (statement st)).
Proof.
  intros Hk Hf.
  assert (Hs : _add_filtering_criteria context st = Ok st).
  { apply hook_skips. unfold wants_filtering.
    assert (is_account_select (statement st) = true) as ->
      by (apply is_account_select_spec; by split).
    simpl. by rewrite andb_false_r. }
  split; [done|]. unfold Session_execute. by rewrite Hs.
Qed.

Lemma C6_witness :
  _add_filtering_criteria Context.__init__
    (mkState (Session_query Account.__tablename__) false false ∅)
  = Ok (mkState (Session_query Account.__tablename__) false false ∅).
Proof.
  apply (C6_account_select_never_filtered run_statement Context.__init__ main_db
           (mkState (Session_query Account.__tablename__) false false ∅));
    reflexivity.
Defined.


(** The statements named by C9: the account table joined with another
    table, aliased, or wrapped in a subquery. *)
Lemma join_alias_subquery_not_direct k w o :
  ¬ direct_account_select
      (Statement.mk k [Join (Table "account") (Table "user") (λ _ _, true)] w o)
  ∧ ¬ direct_account_select (Statement.mk k [Alias (Table "account") "account"] w o)
  ∧ ¬ direct_account_select (Statement.mk k [Subquery (Table "account") "account"] w o)
  ∧ ¬ direct_account_select (Statement.mk k [Table "account"; Table "user"] w o).
Proof. repeat split; intros [_ H]; discriminate H. Qed.


(** C4: with nothing set in the context, a top-level query for users makes
    the hook raise at [account.id]; the statement is not passed through. *)
Theorem C4_unset_context_raises :
  _add_filtering_criteria Context.__init__
    (mkState (Session_query User.__tablename__) false false ∅)
  = Raise (AttributeError "'NoneType' object has no attribute 'id'")
  ∧ Session_execute run_statement Context.__init__ main_db
      (mkState (Session_query User.__tablename__) false false ∅)
    = Raise (AttributeError "'NoneType' object has no attribute 'id'").
Proof. split; reflexivity. Qed.

(** ** The executor under the criteria of the hook *)

Lemma admits_tenant opts aliased i v :
  tenant_criteria v ∈ opts →
  admits opts aliased i = true →
  issubclass (class_of i) cls_AccountBoundMixin = true →
  getattr_account_id i = Some v.
Proof.
  intros Hin Ha Hs. unfold admits in Ha. rewrite forallb_forall in Ha.
  apply list_elem_of_In in Hin. specialize (Ha _ Hin). simpl in Ha.
  rewrite Hs, orb_true_r in Ha. simpl in Ha.
  by apply bool_decide_eq_true_1 in Ha.
Qed.

Lemma from_rows_sound db opts f :
  ∀ aliased row i,
    row ∈ from_rows db opts aliased f → i ∈ row →
    i ∈ db ∧ ∃ al, admits opts al i = true.
Proof.
  induction f as [n|e IH n|e IH n|l IHl r IHr on];
    intros aliased row i Hrow Hi; simpl in Hrow; [|by eauto..|].
  - apply list_elem_of_fmap in Hrow as (j & -> & Hj).
    apply list_elem_of_filter in Hj as [[_ Hadm] Hdb].
    apply list_elem_of_singleton in Hi as ->. eauto.
  - apply list_elem_of_bind in Hrow as (t1 & Hrow & Ht1).
    apply list_elem_of_bind in Hrow as (t2 & Hrow & Ht2).
    destruct (on t1 t2); [|by apply elem_of_nil in Hrow].
    apply list_elem_of_singleton in Hrow as ->.
    apply elem_of_app in Hi as [Hi|Hi]; eauto.
Qed.

Lemma froms_rows_sound db opts fs :
  ∀ row i,
    row ∈ froms_rows db opts fs → i ∈ row →
    i ∈ db ∧ ∃ al, admits opts al i = true.
Proof.
  induction fs as [|f fs IH]; intros row i Hrow Hi; simpl in Hrow.
  - apply list_elem_of_singleton in Hrow as ->. by apply elem_of_nil in Hi.
  - apply list_elem_of_bind in Hrow as (t1 & Hrow & Ht1).
    apply list_elem_of_bind in Hrow as (t2 & Hrow & Ht2).
    apply list_elem_of_singleton in Hrow as ->.
    apply elem_of_app in Hi as [Hi|Hi]; [|by eauto].
    eapply from_rows_sound; eauto.
Qed.

Lemma single_table_rows db opts n row i :
  row ∈ froms_rows db opts [Table n] → i ∈ row → table_of i = n.
Proof.
  simpl. intros Hrow Hi.
  apply list_elem_of_bind in Hrow as (t1 & Hrow & Ht1).
  apply list_elem_of_singleton in Hrow as ->. rewrite app_nil_r in Hi.
  apply list_elem_of_fmap in Ht1 as (j & -> & Hj).
  apply list_elem_of_filter in Hj as [[Ht _] _].
  by apply list_elem_of_singleton in Hi as ->.
Qed.

Lemma run_statement_rows db s row :
  row ∈ run_statement db s →
  Statement.kind s = Select
  ∧ row ∈ froms_rows db (Statement._with_options s) (Statement.get_final_froms s).
Proof.
  unfold run_statement. destruct (Statement.kind s);
    try (intros H; by apply elem_of_nil in H).
  intros H. apply list_elem_of_filter in H as [_ H]. done.
Qed.

Lemma run_statement_tenant db s v row i :
  tenant_criteria v ∈ Statement._with_options s →
  row ∈ run_statement db s → i ∈ row →
  issubclass (class_of i) cls_AccountBoundMixin = true →
  getattr_account_id i = Some v.
Proof.
  intros Hin Hrow Hi Hs. apply run_statement_rows in Hrow as [_ Hrow].
  destruct (froms_rows_sound _ _ _ _ _ Hrow Hi) as [_ [al Hal]].
  eauto using admits_tenant.
Qed.

Lemma table_of_tenant_bound i :
  issubclass (class_of i) cls_AccountBoundMixin = true →
  table_of i ≠ Account.__tablename__.
Proof. destruct i; simpl; [discriminate|discriminate..]. Qed.

(** The hook on a top-level execution while an account with an id is
    current: it returns, and a tenant-bound instance can only come back
    from a statement that carries the criteria. *)
Lemma execute_under_tenant context t tid db st :
  Context.get_current_account context = Some t →
  Account.id t = Some tid →
  is_relationship_load st = false →
  is_column_load st = false →
  truthy (dict_get (execution_options st) "include_all_accounts" (PyBool false)) = false →
  ∃ st', _add_filtering_criteria context st = Ok st'
    ∧ ∀ row i, row ∈ run_statement db (statement st') → i ∈ row →
        issubclass (class_of i) cls_AccountBoundMixin = true →
        getattr_account_id i = Some tid
        ∧ tenant_criteria tid ∈ Statement._with_options (statement st').
Proof.
  intros Hctx Hid Hr Hc Hb.
  destruct (is_account_select (statement st)) eqn:He.
  - exists st. split.
    + apply hook_skips. unfold wants_filtering. rewrite He. by rewrite andb_false_r.
    + intros row i Hrow Hi Hs. exfalso.
      apply is_account_select_spec in He as [_ Hf].
      apply run_statement_rows in Hrow as [_ Hrow]. rewrite Hf in Hrow.
      by eapply table_of_tenant_bound, single_table_rows.
  - eexists. split.
    + eapply hook_attaches; [|done..]. unfold wants_filtering.
      by rewrite Hr, Hc, Hb, He.
    + intros row i Hrow Hi Hs.
      assert (Hin : tenant_criteria tid
                    ∈ Statement._with_options
                        (Statement.options (statement st) (tenant_criteria tid))).
      { simpl. apply elem_of_app. right. by apply list_elem_of_singleton. }
      split; [|exact Hin]. eapply run_statement_tenant; eauto.
Qed.

Lemma Session_execute_ok run context db st st' :
  _add_filtering_criteria context st = Ok st' →
  Session_execute run context db st = Ok (st', run db (statement st')).
Proof. unfold Session_execute. by intros ->. Qed.

Lemma relationship_load_execute context db s eo :
  Session_execute run_statement context db (mkState s true false eo)
  = Ok (mkState s true false eo, run_statement db s).
Proof. reflexivity. Qed.

Lemma users_of_elem rows u :
  u ∈ users_of rows ↔ ∃ row, row ∈ rows ∧ UserObj u ∈ row.
Proof.
  unfold users_of. rewrite list_elem_of_omap. split.
  - intros (i & Hi & Hu). destruct i; simplify_eq.
    apply list_elem_of_join in Hi as (row & ? & ?). eauto.
  - intros (row & ? & ?). exists (UserObj u). split; [|done].
    apply list_elem_of_join. eauto.
Qed.

Lemma addresses_of_elem rows a :
  a ∈ addresses_of rows ↔ ∃ row, row ∈ rows ∧ AddressObj a ∈ row.
Proof.
  unfold addresses_of. rewrite list_elem_of_omap. split.
  - intros (i & Hi & Hu). destruct i; simplify_eq.
    apply list_elem_of_join in Hi as (row & ? & ?). eauto.
  - intros (row & ? & ?). exists (AddressObj a). split; [|done].
    apply list_elem_of_join. eauto.
Qed.

Lemma addresses_statement_tenant db carried ids v a :
  tenant_criteria v ∈ carried →
  a ∈ addresses_of (run_statement db (addresses_statement carried ids)) →
  Address.account_id a = v.
Proof.
  intros Hin Ha. apply addresses_of_elem in Ha as (row & Hrow & Hi).
  assert (H : getattr_account_id (AddressObj a) = Some v).
  { eapply run_statement_tenant; [| exact Hrow | exact Hi | reflexivity]. exact Hin. }
  by simplify_eq/=.
Qed.

Lemma propagate_keeps_tenant v opts :
  tenant_criteria v ∈ opts → tenant_criteria v ∈ propagate_to_loaders opts.
Proof. intros H. unfold propagate_to_loaders. by apply list_elem_of_filter. Qed.

(** The shape of an iteration while an account with an id is current. *)
Lemma Query_iter_under_tenant context t tid db q eo :
  Context.get_current_account context = Some t →
  Account.id t = Some tid →
  truthy (dict_get eo "include_all_accounts" (PyBool false)) = false →
  ∃ users carried,
    Query_iter context db q eo
    = Ok ((λ u, mkLoaded u
             (if has_selectinload (Statement._with_options q)
              then Loaded (addresses_for u
                     (addresses_of
                        (run_statement db
                           (addresses_statement carried (User.id <$> users)))))
              else Unloaded carried)) <$> users)
    ∧ ∀ u, u ∈ users →
        User.account_id u = tid ∧ tenant_criteria tid ∈ carried.
Proof.
  intros Hctx Hid Hb.
  destruct (execute_under_tenant context t tid db (mkState q false false eo))
    as (st' & Hhook & Hrows); [done..|].
  exists (users_of (run_statement db (statement st'))),
         (propagate_to_loaders (Statement._with_options (statement st'))).
  split.
  - unfold Query_iter. rewrite (Session_execute_ok _ _ _ _ _ Hhook). simpl.
    by destruct (has_selectinload (Statement._with_options q)).
  - intros u Hu. apply users_of_elem in Hu as (row & Hrow & Hi).
    destruct (Hrows row (UserObj u) Hrow Hi eq_refl) as [Ha Hin].
    split; [by simplify_eq/=|]. by apply propagate_keeps_tenant.
Qed.

Lemma get_addresses_tenant context' db u coll v :
  (∀ carried, coll = Unloaded carried → tenant_criteria v ∈ carried) →
  (∀ l a, coll = Loaded l → a ∈ l → Address.account_id a = v) →
  ∃ addrs, get_addresses context' db (mkLoaded u coll) = Ok addrs
    ∧ ∀ a, a ∈ addrs → Address.account_id a = v.
Proof.
  intros Hu Hl. unfold get_addresses. simpl. destruct coll as [l|carried].
  - exists l. split; [done|]. eauto.
  - eexists. split; [reflexivity|].
    intros a Ha. eapply addresses_statement_tenant; [|exact Ha]. eauto.
Qed.

(** Users and addresses of an iteration while an account with an id is
    current. *)
Lemma iter_under_tenant context t tid db q eo :
  Context.get_current_account context = Some t →
  Account.id t = Some tid →
  truthy (dict_get eo "include_all_accounts" (PyBool false)) = false →
  ∃ us,
    Query_iter context db q eo = Ok us
    ∧ ∀ lu context', lu ∈ us →
        User.account_id (obj lu) = tid
        ∧ ∃ addrs,
            get_addresses context' db lu = Ok addrs
            ∧ ∀ a, a ∈ addrs → Address.account_id a = tid.
Proof.
  intros Hctx Hid Hb.
  destruct (Query_iter_under_tenant context t tid db q eo)
    as (users & carried & Hq & Hus); [done..|].
  eexists. split; [exact Hq|].
  intros lu context' Hlu. apply list_elem_of_fmap in Hlu as (u & -> & Hu).
  destruct (Hus u Hu) as [Hacc Hin]. split; [done|].
  apply get_addresses_tenant.
  - intros c Hc. destruct (has_selectinload _); by simplify_eq.
  - intros l a Hl Hal. destruct (has_selectinload _); simplify_eq.
    unfold addresses_for in Hal. apply list_elem_of_filter in Hal as [_ Hal].
    by eapply addresses_statement_tenant.
Qed.

(** ** Tenant isolation *)

(** C1: while an account with an id is current, a top-level execution
    without the bypass flag returns, and every tenant-bound instance (a user
    or an address) in its rows has the [account_id] of that account. In the
    script's data, the users seen under "acc1" are u1, u2 and u5, each with
    [account_id] "acc1". *)
Theorem C1_query_returns_only_tenant_records :
  (∀ context t db st,
     Context.get_current_account context = Some t →
     is_Some (Account.id t) →
     is_relationship_load st = false →
     is_column_load st = false →
     truthy (dict_get (execution_options st) "include_all_accounts" (PyBool false))
     = false →
     ∃ st' rows,
       Session_execute run_statement context db st = Ok (st', rows)
       ∧ ∀ row r, row ∈ rows → r ∈ row →
           issubclass (class_of r) cls_AccountBoundMixin = true →
           getattr_account_id r = Account.id t)
  ∧ ∃ us,
      Query_iter (Context.set_current_account Context.__init__ (Some acc1))
        main_db users_query ∅ = Ok us
      ∧ (λ lu, User.name (obj lu)) <$> us = ["u1"; "u2"; "u5"]
      ∧ Forall (λ lu, Some (User.account_id (obj lu)) = Account.id acc1) us.
Proof.
  split.
  - intros context t db st Hctx [tid Hid] Hr Hc Hb.
    destruct (execute_under_tenant context t tid db st) as (st' & Hhook & Hrows);
      [done..|].
    exists st', (run_statement db (statement st')). split.
    + by apply Session_execute_ok.
    + intros row r Hrow Hi Hs. rewrite Hid. by apply (Hrows row r).
  - eexists. split; [vm_compute; reflexivity|]. split; [reflexivity|].
    repeat constructor.
Qed.

Lemma C1_witness :
  ∃ st' rows,
    Session_execute run_statement
      (Context.set_current_account Context.__init__ (Some acc1)) main_db
      (mkState users_query_lazy false false ∅) = Ok (st', rows)
    ∧ ∀ row r, row ∈ rows → r ∈ row →
        issubclass (class_of r) cls_AccountBoundMixin = true →
        getattr_account_id r = Account.id acc1.
Proof.
  apply (proj1 C1_query_returns_only_tenant_records
           (Context.set_current_account Context.__init__ (Some acc1)) acc1 main_db
           (mkState users_query_lazy false false ∅)); try reflexivity.
  exists "acc1". reflexivity.
Defined.

(** C2: while an account with an id is current, every address reached from
    a user of a query result has the [account_id] of that account, whether
    the collection came with the query ([selectinload]) or is loaded on
    access (lazy load), under whatever context the access is made. In the
    script's data under "acc1", u2 keeps u2a2 only and u5 keeps u5a1 only,
    with either strategy. *)
Theorem C2_relationship_loads_filtered :
  (∀ context t db q eo,
     Context.get_current_account context = Some t →
     is_Some (Account.id t) →
     truthy (dict_get eo "include_all_accounts" (PyBool false)) = false →
     ∃ us,
       Query_iter context db q eo = Ok us
       ∧ ∀ lu context', lu ∈ us →
           ∃ addrs,
             get_addresses context' db lu = Ok addrs
             ∧ ∀ a, a ∈ addrs → Some (Address.account_id a) = Account.id t)
  ∧ (Query_iter (Context.set_current_account Context.__init__ (Some acc1))
       main_db users_query ∅
     ≫= addresses_by_user (Context.set_current_account Context.__init__ (Some acc1))
          main_db)
    = Ok [("u1", ["u1a1"; "u1a2"]); ("u2", ["u2a2"]); ("u5", ["u5a1"])]
  ∧ (Query_iter (Context.set_current_account Context.__init__ (Some acc1))
       main_db users_query_lazy ∅
     ≫= addresses_by_user (Context.set_current_account Context.__init__ (Some acc1))
          main_db)
    = Ok [("u1", ["u1a1"; "u1a2"]); ("u2", ["u2a2"]); ("u5", ["u5a1"])].
Proof.
  split; [|split; vm_compute; reflexivity].
  intros context t db q eo Hctx [tid Hid] Hb.
  destruct (iter_under_tenant context t tid db q eo) as (us & Hq & Hus); [done..|].
  exists us. split; [done|]. intros lu context' Hlu.
  destruct (Hus lu context' Hlu) as (_ & addrs & Hg & Ha).
  exists addrs. split; [done|]. intros a Haa. rewrite Hid. f_equal. by apply Ha.
Qed.

Lemma C2_witness :
  ∃ us,
    Query_iter (Context.set_current_account Context.__init__ (Some acc1))
      main_db users_query_lazy ∅ = Ok us
    ∧ ∀ lu context', lu ∈ us →
        ∃ addrs,
          get_addresses context' main_db lu = Ok addrs
          ∧ ∀ a, a ∈ addrs → Some (Address.account_id a) = Account.id acc1.
Proof.
  apply (proj1 C2_relationship_loads_filtered
           (Context.set_current_account Context.__init__ (Some acc1)) acc1 main_db
           users_query_lazy ∅); try reflexivity.
  exists "acc1". reflexivity.
Defined.



(** What the two queries of the script see, before and after the change
    from "acc1" to "acc2". *)
Example switch_on_script_data :
  query_switch_query Context.__init__ main_db users_query acc1 acc2
  ≫= (λ '(us1, us2),
        r1 ← addresses_by_user Context.__init__ main_db us1;
        r2 ← addresses_by_user Context.__init__ main_db us2;
        Ok (r1, r2))
  = Ok ([("u1", ["u1a1"; "u1a2"]); ("u2", ["u2a2"]); ("u5", ["u5a1"])],
        [("u3", ["u3a1"; "u3a2"]); ("u4", ["u4a1"])]).
Proof. vm_compute. reflexivity. Qed.

(** With the executor above, which keeps no statement cache, the loops of
    the script pass their assertions. *)
Example main_passes : main = Ok ().
Proof. vm_compute. reflexivity. Qed.

(** ** The scope of the criteria *)

(** C10: the criteria the hook injects name [AccountBoundMixin], which
    [User] and [Address] inherit and [Account] does not. An [Account]
    instance always passes them, a user or an address passes them exactly
    when its [account_id] is the current id, and a load from the account
    table, such as the one behind the [account] relationship of a
    tenant-bound object, returns the same accounts with the criteria as
    without them. *)
Theorem C10_criteria_scoped_to_mixin :
  (issubclass cls_User cls_AccountBoundMixin = true
   ∧ issubclass cls_Address cls_AccountBoundMixin = true
   ∧ issubclass cls_Account cls_AccountBoundMixin = false)
  ∧ (∀ context st st',
       _add_filtering_criteria context st = Ok st' →
       Statement._with_options (statement st') = Statement._with_options (statement st)
       ∨ ∃ v,
           Statement._with_options (statement st')
           = Statement._with_options (statement st)
             ++ [with_loader_criteria cls_AccountBoundMixin (account_id_eq v) true true])
  ∧ (∀ v aliased a, option_admits aliased (AccountObj a) (tenant_criteria v) = true)
  ∧ (∀ v aliased i,
       issubclass (class_of i) cls_AccountBoundMixin = true →
       option_admits aliased i (tenant_criteria v)
       = bool_decide (getattr_account_id i = Some v))
  ∧ (∀ v db opts aliased,
       from_rows db (opts ++ [tenant_criteria v]) aliased (Table Account.__tablename__)
       = from_rows db opts aliased (Table Account.__tablename__))
  ∧ (∀ v context db carried account_id,
       get_account context db (carried ++ [tenant_criteria v]) account_id
       = get_account context db carried account_id).
Proof.
  assert (Hrows : ∀ v db opts aliased,
    from_rows db (opts ++ [tenant_criteria v]) aliased (Table Account.__tablename__)
    = from_rows db opts aliased (Table Account.__tablename__)).
  { intros v db opts aliased. simpl. f_equal. apply list_filter_iff.
    intros i. split; intros [Ht Ha]; (split; [done|]); unfold admits in *.
    - rewrite forallb_app in Ha. by apply andb_prop in Ha as [Ha _].
    - rewrite forallb_app, Ha. simpl. destruct i; simplify_eq/=. reflexivity. }
  split; [done|]. split.
  { intros context st st'. unfold _add_filtering_criteria.
    destruct (wants_filtering st); [|intros [= <-]; by left].
    destruct (Context.get_current_account context) as [account|]; [|done]. simpl.
    destruct (Account.id account) as [v|]; intros [= <-]; [right|left]; eauto. }
  split; [done|]. split.
  - intros v aliased i Hs. simpl. by rewrite Hs, orb_true_r.
  - split; [exact Hrows|].
    intros v context db carried account_id.
    unfold get_account, Session_execute. simpl. unfold run_statement. simpl.
    pose proof (Hrows v db carried false) as H. simpl in H. by rewrite H.
Qed.

(** * Further properties of the hook *)

Lemma wants_filtering_spec st :
  wants_filtering st = true
  ↔ is_relationship_load st = false
    ∧ is_column_load st = false
    ∧ truthy (dict_get (execution_options st) "include_all_accounts" (PyBool false))
      = false
    ∧ ¬ direct_account_select (statement st).
Proof.
  unfold wants_filtering. rewrite !andb_true_iff, !negb_true_iff.
  rewrite <- is_account_select_spec, not_true_iff_false. tauto.
Qed.

Lemma options_neq s o : Statement.options s o ≠ s.
Proof.
  intros H. apply (f_equal Statement._with_options) in H. simpl in H.
  apply (f_equal length) in H. rewrite length_app in H. simpl in H. lia.
Qed.

Lemma is_account_select_options s o :
  is_account_select (Statement.options s o) = is_account_select s.
Proof. reflexivity. Qed.

(** X1: the hook raises exactly when the execution is a top-level one
    without a true bypass flag, the statement is not a direct select of
    the account table, and no account is set; what it raises is the
    [AttributeError] of [account.id]. *)
Theorem hook_raises_iff context st :
  ((∃ e, _add_filtering_criteria context st = Raise e)
   ↔ is_relationship_load st = false
     ∧ is_column_load st = false
     ∧ truthy (dict_get (execution_options st) "include_all_accounts" (PyBool false))
       = false
     ∧ ¬ direct_account_select (statement st)
     ∧ Context.get_current_account context = None)
  ∧ ∀ e, _add_filtering_criteria context st = Raise e →
      e = AttributeError "'NoneType' object has no attribute 'id'".
Proof.
  unfold _add_filtering_criteria. split.
  - trans (wants_filtering st = true ∧ Context.get_current_account context = None);
      [|rewrite wants_filtering_spec; tauto].
    destruct (wants_filtering st).
    + destruct (Context.get_current_account context) as [a|]; simpl.
      * split; [|intros [_ ?]; done].
        intros [e He]. destruct (Account.id a); discriminate.
      * split; [done|by eauto].
    + split; [intros [e ?]; discriminate|intros [? _]; discriminate].
  - intros e. destruct (wants_filtering st); [|discriminate].
    destruct (Context.get_current_account context) as [a|]; simpl.
    + destruct (Account.id a); discriminate.
    + by intros [= <-].
Qed.

(** X2: what the hook leaves alone. When it returns, the load flags, the
    execution options, the kind, the final FROM list and the WHERE clause
    are those it was given, the options already on the statement are kept
    in place with at most one option added after them, and the guard of
    the hook answers on the new state as on the old. *)
Theorem hook_frame context st st' :
  _add_filtering_criteria context st = Ok st' →
  is_relationship_load st' = is_relationship_load st
  ∧ is_column_load st' = is_column_load st
  ∧ execution_options st' = execution_options st
  ∧ Statement.kind (statement st') = Statement.kind (statement st)
  ∧ Statement.get_final_froms (statement st')
    = Statement.get_final_froms (statement st)
  ∧ Statement.whereclause (statement st') = Statement.whereclause (statement st)
  ∧ (∃ added,
       Statement._with_options (statement st')
       = Statement._with_options (statement st) ++ added
       ∧ (length added ≤ 1)%nat)
  ∧ wants_filtering st' = wants_filtering st.
Proof.
  intros H.
  assert (Hcases : st' = st
    ∨ ∃ v, st' = set_statement st
                   (Statement.options (statement st) (tenant_criteria v))).
  { unfold _add_filtering_criteria in H.
    destruct (wants_filtering st); [|left; congruence].
    destruct (Context.get_current_account context) as [a|]; [|done]. simpl in H.
    destruct (Account.id a) as [v|]; [right; exists v|left]; congruence. }
  destruct Hcases as [-> | [v ->]].
  - repeat (split; [done|]). split; [|done].
    exists []. rewrite app_nil_r. split; [done|]. simpl. lia.
  - repeat (split; [done|]). split; [|done].
    exists [tenant_criteria v]. split; [done|]. simpl. lia.
Qed.

Lemma hook_frame_witness :
  ∃ added,
    Statement._with_options
      (statement (mkState (Statement.options users_query (tenant_criteria "acc1"))
                    false false ∅))
    = Statement._with_options (statement (mkState users_query false false ∅))
      ++ added
    ∧ (length added ≤ 1)%nat.
Proof.
  apply (hook_frame (Context.set_current_account Context.__init__ (Some acc1))
           (mkState users_query false false ∅)
           (mkState (Statement.options users_query (tenant_criteria "acc1"))
              false false ∅)).
  reflexivity.
Defined.

(** X3: on a top-level execution of a statement that is not a direct
    select of the account table, while an account with an id is current,
    the hook hands the state back unchanged exactly when the bypass flag
    holds a true value. *)
Theorem unchanged_iff_bypass context st account v :
  is_relationship_load st = false →
  is_column_load st = false →
  ¬ direct_account_select (statement st) →
  Context.get_current_account context = Some account →
  Account.id account = Some v →
  _add_filtering_criteria context st = Ok st
  ↔ truthy (dict_get (execution_options st) "include_all_accounts" (PyBool false))
    = true.
Proof.
  intros Hr Hc Hn Hctx Hid. split.
  - intros H.
    destruct (truthy (dict_get (execution_options st) "include_all_accounts"
                        (PyBool false))) eqn:Hb; [done|].
    rewrite (hook_attaches context st account v) in H;
      [|by apply wants_filtering_spec|done..].
    injection H as H. apply (f_equal statement) in H. simpl in H.
    by apply options_neq in H.
  - intros Hb. apply hook_skips.
    destruct (wants_filtering st) eqn:Hw; [|done].
    apply wants_filtering_spec in Hw as (_ & _ & Hb' & _). congruence.
Qed.

Lemma unchanged_iff_bypass_witness :
  _add_filtering_criteria
    (Context.set_current_account Context.__init__ (Some acc1))
    (mkState users_query false false {[ "include_all_accounts" := PyInt 1 ]})
  = Ok (mkState users_query false false {[ "include_all_accounts" := PyInt 1 ]})
  ↔ truthy (dict_get {[ "include_all_accounts" := PyInt 1 ]}
              "include_all_accounts" (PyBool false)) = true.
Proof.
  refine (unchanged_iff_bypass
            (Context.set_current_account Context.__init__ (Some acc1))
            (mkState users_query false false {[ "include_all_accounts" := PyInt 1 ]})
            acc1 "acc1" _ _ _ _ _); try reflexivity.
  intros [_ H]. discriminate H.
Defined.



(** X5: while the current account is an object whose [id] is [None], the
    hook returns every execute state as it came, whatever the statement
    and the flags are, and the session runs the statement without the
    criteria. *)
Theorem account_without_id_passes_through run context db st account :
  Context.get_current_account context = Some account →
  Account.id account = None →
  _add_filtering_criteria context st = Ok st
  ∧ Session_execute run context db st = Ok (st, run db (statement st)).
Proof.
  intros Hctx Hid.
  pose proof (hook_passes_without_id context st account Hctx Hid) as H.
  split; [done|]. by apply Session_execute_ok.
Qed.

Lemma account_without_id_passes_through_witness :
  _add_filtering_criteria
    (Context.set_current_account Context.__init__
       (Some (Account.mk None (Some "pending account"))))
    (mkState users_query false false ∅)
  = Ok (mkState users_query false false ∅).
Proof.
  apply (account_without_id_passes_through run_statement
           (Context.set_current_account Context.__init__
              (Some (Account.mk None (Some "pending account"))))
           main_db (mkState users_query false false ∅)
           (Account.mk None (Some "pending account"))); reflexivity.
Defined.

(** X6: the hook does not look for criteria already on the statement. Run
    a second time on the state it returned, under the same or another
    current account, it adds a second criteria after the first; the first
    is neither replaced nor removed. *)
Theorem hook_twice_accumulates context1 context2 st a1 a2 v1 v2 :
  is_relationship_load st = false →
  is_column_load st = false →
  truthy (dict_get (execution_options st) "include_all_accounts" (PyBool false))
  = false →
  ¬ direct_account_select (statement st) →
  Context.get_current_account context1 = Some a1 →
  Account.id a1 = Some v1 →
  Context.get_current_account context2 = Some a2 →
  Account.id a2 = Some v2 →
  (_add_filtering_criteria context1 st ≫= _add_filtering_criteria context2)
  = Ok (set_statement st
          (Statement.options
             (Statement.options (statement st) (tenant_criteria v1))
             (tenant_criteria v2))).
Proof.
  intros Hr Hc Hb Hn H1 Hv1 H2 Hv2.
  assert (Hw : wants_filtering st = true) by by apply wants_filtering_spec.
  rewrite (hook_attaches context1 st a1 v1 Hw H1 Hv1).
  exact (hook_attaches context2
           (set_statement st (Statement.options (statement st) (tenant_criteria v1)))
           a2 v2 Hw H2 Hv2).
Qed.

Lemma hook_twice_accumulates_witness :
  (_add_filtering_criteria
     (Context.set_current_account Context.__init__ (Some acc1))
     (mkState users_query_lazy false false ∅)
   ≫= _add_filtering_criteria
        (Context.set_current_account Context.__init__ (Some acc2)))
  = Ok (mkState
          (Statement.mk Select [Table "user"] (λ _, true)
             [tenant_criteria "acc1"; tenant_criteria "acc2"])
          false false ∅).
Proof.
  apply (hook_twice_accumulates
           (Context.set_current_account Context.__init__ (Some acc1))
           (Context.set_current_account Context.__init__ (Some acc2))
           (mkState users_query_lazy false false ∅) acc1 acc2 "acc1" "acc2");
    try reflexivity.
  intros [_ H]. discriminate H.
Defined.

(** * The assertion loops of the script *)

Lemma assert_ok b msg : assert b msg = Ok () ↔ b = true.
Proof. unfold assert. destruct b; split; congruence. Qed.

Lemma for_each_ok {A : Type} (l : list A) (body : A → result unit) :
  for_each l body = Ok () ↔ ∀ x, x ∈ l → body x = Ok ().
Proof.
  induction l as [|x l IH]; simpl.
  - split; [intros _ y Hy; by apply elem_of_nil in Hy|done].
  - split.
    + intros H y Hy. destruct (body x) as [[]|e] eqn:Hx; [|discriminate].
      apply elem_of_cons in Hy as [->|Hy]; [done|]. by apply IH.
    + intros H. rewrite (H x) by (apply elem_of_cons; auto). simpl.
      apply IH. intros y Hy. apply H, elem_of_cons. auto.
Qed.

Lemma for_each_raise {A : Type} (l : list A) (body : A → result unit) e :
  for_each l body = Raise e → ∃ x, x ∈ l ∧ body x = Raise e.
Proof.
  induction l as [|x l IH]; simpl; [discriminate|].
  destruct (body x) as [[]|e'] eqn:Hx; simpl.
  - intros H. destruct (IH H) as (y & Hy & Hb). exists y.
    split; [apply elem_of_cons; auto|done].
  - intros [= <-]. exists x. split; [apply elem_of_cons; auto|done].
Qed.

(** X7: the loop of lines 185-191 (and 195-201) is an exact check. Given
    what the query returned, it ends without an exception if and only if
    every user returned has the [account_id] of the account and every
    address of its collection can be loaded and has it too. *)
Theorem check_users_ok_iff context db acc msg us :
  Query_iter context db users_query ∅ = Ok us →
  check_users context db acc msg = Ok ()
  ↔ ∀ lu, lu ∈ us →
      Some (User.account_id (obj lu)) = Account.id acc
      ∧ ∃ addrs,
          get_addresses context db lu = Ok addrs
          ∧ ∀ a, a ∈ addrs → Some (Address.account_id a) = Account.id acc.
Proof.
  intros Hq. unfold check_users. rewrite Hq. simpl. rewrite for_each_ok.
  split.
  - intros H lu Hlu. specialize (H lu Hlu).
    destruct (assert _ _) as [[]|e] eqn:Hu in H; [|discriminate]. simpl in H.
    apply assert_ok, bool_decide_eq_true_1 in Hu. split; [done|].
    destruct (get_addresses context db lu) as [addrs|e]; [|discriminate].
    simpl in H. exists addrs. split; [done|]. intros a Ha.
    rewrite for_each_ok in H. specialize (H a Ha).
    by apply assert_ok, bool_decide_eq_true_1 in H.
  - intros H lu Hlu. destruct (H lu Hlu) as (Hu & addrs & Hg & Ha).
    rewrite (proj2 (assert_ok _ _)) by by apply bool_decide_eq_true_2.
    simpl. rewrite Hg. simpl. apply for_each_ok. intros a Haa.
    apply assert_ok, bool_decide_eq_true_2. by apply Ha.
Qed.

Lemma check_users_ok_iff_witness :
  ∃ us,
    Query_iter (Context.set_current_account Context.__init__ (Some acc1))
      main_db users_query ∅ = Ok us
    ∧ (check_users (Context.set_current_account Context.__init__ (Some acc1))
         main_db acc2 "expected all addresses to belong to account 2" = Ok ()
       ↔ ∀ lu, lu ∈ us →
           Some (User.account_id (obj lu)) = Account.id acc2
           ∧ ∃ addrs,
               get_addresses
                 (Context.set_current_account Context.__init__ (Some acc1))
                 main_db lu = Ok addrs
               ∧ ∀ a, a ∈ addrs →
                   Some (Address.account_id a) = Account.id acc2).
Proof.
  eexists. split; [vm_compute; reflexivity|].
  refine (check_users_ok_iff
            (Context.set_current_account Context.__init__ (Some acc1))
            main_db acc2 "expected all addresses to belong to account 2" _ _).
  vm_compute. reflexivity.
Defined.

(** X8: when the query returned and the loop fails, the exception is the
    assertion error of the user check, which has an empty message, the
    assertion error of the address check with the message given, or the
    exception of a load of a collection. *)
Theorem check_users_failure context db acc msg us e :
  Query_iter context db users_query ∅ = Ok us →
  check_users context db acc msg = Raise e →
  (e = AssertionError ""
   ∧ ∃ lu, lu ∈ us ∧ Some (User.account_id (obj lu)) ≠ Account.id acc)
  ∨ (e = AssertionError msg
     ∧ ∃ lu addrs a,
         lu ∈ us ∧ get_addresses context db lu = Ok addrs ∧ a ∈ addrs
         ∧ Some (Address.account_id a) ≠ Account.id acc)
  ∨ ∃ lu, lu ∈ us ∧ get_addresses context db lu = Raise e.
Proof.
  intros Hq. unfold check_users. rewrite Hq. simpl. intros H.
  apply for_each_raise in H as (lu & Hlu & H).
  unfold assert in H at 1.
  destruct (bool_decide (Some (User.account_id (obj lu)) = Account.id acc)) eqn:Hu;
    simpl in H.
  - destruct (get_addresses context db lu) as [addrs|e'] eqn:Hg; simpl in H.
    + apply for_each_raise in H as (a & Ha & H). unfold assert in H.
      destruct (bool_decide _) eqn:Hb in H; [discriminate|].
      injection H as <-. apply bool_decide_eq_false_1 in Hb.
      right; left. split; [done|]. by exists lu, addrs, a.
    + injection H as <-. right; right. by exists lu.
  - injection H as <-. apply bool_decide_eq_false_1 in Hu.
    left. split; [done|]. by exists lu.
Qed.

Lemma check_users_failure_witness :
  (AssertionError "" = AssertionError ""
   ∧ ∃ lu,
       lu ∈ [mkLoaded (User.mk 1 "u1" "acc1") (Loaded []);
             mkLoaded (User.mk 2 "u2" "acc1") (Loaded []);
             mkLoaded (User.mk 5 "u5" "acc1") (Loaded [])]
       ∧ Some (User.account_id (obj lu)) ≠ Account.id acc2)
  ∨ (AssertionError "" = AssertionError "expected all addresses to belong to account 2"
     ∧ ∃ lu addrs a,
         lu ∈ [mkLoaded (User.mk 1 "u1" "acc1") (Loaded []);
               mkLoaded (User.mk 2 "u2" "acc1") (Loaded []);
               mkLoaded (User.mk 5 "u5" "acc1") (Loaded [])]
         ∧ get_addresses
             (Context.set_current_account Context.__init__ (Some acc1))
             [AccountObj acc1; UserObj (User.mk 1 "u1" "acc1");
              UserObj (User.mk 2 "u2" "acc1"); UserObj (User.mk 5 "u5" "acc1")]
             lu = Ok addrs
         ∧ a ∈ addrs
         ∧ Some (Address.account_id a) ≠ Account.id acc2)
  ∨ ∃ lu,
      lu ∈ [mkLoaded (User.mk 1 "u1" "acc1") (Loaded []);
            mkLoaded (User.mk 2 "u2" "acc1") (Loaded []);
            mkLoaded (User.mk 5 "u5" "acc1") (Loaded [])]
      ∧ get_addresses
          (Context.set_current_account Context.__init__ (Some acc1))
          [AccountObj acc1; UserObj (User.mk 1 "u1" "acc1");
           UserObj (User.mk 2 "u2" "acc1"); UserObj (User.mk 5 "u5" "acc1")]
          lu = Raise (AssertionError "").
Proof.
  apply (check_users_failure
           (Context.set_current_account Context.__init__ (Some acc1))
           [AccountObj acc1; UserObj (User.mk 1 "u1" "acc1");
            UserObj (User.mk 2 "u2" "acc1"); UserObj (User.mk 5 "u5" "acc1")]
           acc2 "expected all addresses to belong to account 2");
    vm_compute; reflexivity.
Defined.
